(** * apps/ai-gateway/main.py: the AI gateway skeleton service

    A shallow embedding of [main.py].  The module builds one application
    object, installs one CORS middleware on it, registers three GET routes
    whose handlers return literal dictionaries, and, when run as the main
    program, starts the server on a fixed host and port.

    Python dictionaries keep their insertion order, and that order is the
    order of the keys in the JSON body, so a dictionary is an ordered list
    of items with distinct keys.  Handlers are computations over the program
    state that either return a value or raise. *)

From Stdlib Require Import ZArith.
From stdpp Require Import gmap strings list.

Local Open Scope string_scope.
Local Open Scope Z_scope.
Local Open Scope list_scope.

(** ** Python dictionaries with [str] keys and [str] values *)

Module PyDict.

(** Items in insertion order. *)
Definition t : Type := list (string * string).

Definition empty : t := [].

(** [d[k] = v]: an existing key keeps its position and gets the new value,
    a new key goes to the end. *)
Fixpoint setitem (k v : string) (d : t) : t :=
  match d with
  | [] => [(k, v)]
  | (k', v') :: d' =>
      if String.eqb k k' then (k', v) :: d' else (k', v') :: setitem k v d'
  end.

(** [{k1: v1, ..., kn: vn}]: the items are stored left to right. *)
Definition literal (items : list (string * string)) : t :=
  foldl (fun d kv => setitem kv.1 kv.2 d) empty items.

(** [d.get(k)] *)
Fixpoint getitem (k : string) (d : t) : option string :=
  match d with
  | [] => None
  | (k', v) :: d' => if String.eqb k k' then Some v else getitem k d'
  end.

(** [list(d.keys())] and [set(d.keys())] *)
Definition keys (d : t) : list string := d.*1.

Definition key_set (d : t) : gset string := list_to_set (keys d).

End PyDict.

(** ** The application object *)

(** The functions of the module that are registered as endpoints. *)
Inductive Endpoint : Type :=
  | HealthCheck
  | Root
  | TestHotReload.

#[global] Instance Endpoint_eq_dec : EqDecision Endpoint.
Proof. solve_decision. Defined.

(** The keyword arguments of [app.add_middleware(CORSMiddleware, ...)]. *)
Record CORSMiddleware : Type := {
  allow_origins : list string;
  allow_credentials : bool;
  allow_methods : list string;
  allow_headers : list string
}.

(** What a route decorator records: the path, the methods, the decorated
    function and the [status_code] keyword ([None] when it is not given). *)
Record Route : Type := {
  path : string;
  methods : list string;
  endpoint : Endpoint;
  status_code : option Z
}.

Module FastAPI.

(** [routes] holds the routes that main.py registers, in registration
    order; the routes the framework itself serves are not part of it. *)
Record t : Type := {
  title : string;
  description : string;
  version : string;
  user_middleware : list CORSMiddleware;
  routes : list Route
}.

(** [FastAPI(title=..., description=..., version=...)] *)
Definition new (title description version : string) : t :=
  {| title := title; description := description; version := version;
     user_middleware := []; routes := [] |}.

(** [app.add_middleware(CORSMiddleware, ...)] *)
Definition add_middleware (m : CORSMiddleware) (a : t) : t :=
  {| title := title a; description := description a; version := version a;
     user_middleware := m :: user_middleware a; routes := routes a |}.

(** [@app.get(path)] applied to the function [f] *)
Definition get (p : string) (f : Endpoint) (a : t) : t :=
  {| title := title a; description := description a; version := version a;
     user_middleware := user_middleware a;
     routes := routes a ++ [ {| path := p; methods := ["GET"];
                                endpoint := f; status_code := None |} ] |}.

End FastAPI.

(** ** Program state and handler computations *)

(** The state a function of the module can reach: the process environment
    ([os.environ]), the wall clock, and the module-level [app] object. *)
Record ProgramState : Type := {
  environ : gmap string string;
  clock : Z;
  app_obj : FastAPI.t
}.

(** The outcome of running Python code: a value, or an exception (named by
    its class). *)
Inductive Result (A : Type) : Type :=
  | Ok (a : A)
  | Raise (exc : string).

Arguments Ok {A} a.
Arguments Raise {A} exc.

Definition M (A : Type) : Type := ProgramState -> Result A * ProgramState.

(** [return v] *)
Definition ret {A : Type} (v : A) : M A := fun s => (Ok v, s).

(** ** The module body, top to bottom *)

Definition cors : CORSMiddleware :=
  {| allow_origins := ["http://localhost:3000"; "http://localhost:4000"];
     allow_credentials := true;
     allow_methods := ["*"];
     allow_headers := ["*"] |}.

Definition health_check : M PyDict.t :=
  ret (PyDict.literal
         [ ("status", "ok");
           ("timestamp", "2024-01-01T00:00:00Z");
           ("service", "ai-gateway");
           ("version", "1.0.0") ]).

Definition root : M PyDict.t :=
  ret (PyDict.literal [ ("message", "AI Gateway Service is running") ]).

Definition test_hot_reload : M PyDict.t :=
  ret (PyDict.literal
         [ ("message", "Hot reload is working!");
           ("timestamp", "2024-01-01T00:00:00Z") ]).

(** The three functions take no parameters. *)
Definition signature (f : Endpoint) : list string :=
  match f with
  | HealthCheck => []
  | Root => []
  | TestHotReload => []
  end.

Definition call (f : Endpoint) : M PyDict.t :=
  match f with
  | HealthCheck => health_check
  | Root => root
  | TestHotReload => test_hot_reload
  end.

(** [app] after the last statement of the module. *)
Definition app : FastAPI.t :=
  FastAPI.get "/test-hot-reload" TestHotReload
    (FastAPI.get "/" Root
       (FastAPI.get "/health" HealthCheck
          (FastAPI.add_middleware cors
             (FastAPI.new "AI Gateway Service"
                "AI service gateway for pronunciation assistant"
                "1.0.0")))).

(** The arguments of [uvicorn.run]. *)
Record ServerConfig : Type := {
  served : FastAPI.t;
  host : string;
  port : Z
}.

(** [if __name__ == "__main__": uvicorn.run(app, host="0.0.0.0", port=8001)]:
    the server configuration, if the module starts one. *)
Definition main (dunder_name : string) : option ServerConfig :=
  if String.eqb dunder_name "__main__"
  then Some {| served := app; host := "0.0.0.0"; port := 8001 |}
  else None.

(** ** Serving a request *)

Record Response : Type := {
  status : Z;
  body : option PyDict.t
}.

(** Modelled from the spec: the status the framework gives to the response
    of a handler that returned, when the route has no [status_code] of its
    own ("returns HTTP 200"); the framework is not part of main.py. *)
Definition default_status_code : Z := 200.

(** Modelled from the spec: the status the framework gives when the handler
    raised ("500 for unhandled exceptions"); the framework is not part of
    main.py. *)
Definition unhandled_exception_status : Z := 500.

(** Run the endpoint of a route and wrap what it returns. *)
Definition serve (r : Route) (s : ProgramState) : Response * ProgramState :=
  match call (endpoint r) s with
  | (Ok d, s') =>
      ({| status := default default_status_code (status_code r);
          body := Some d |}, s')
  | (Raise _, s') =>
      ({| status := unhandled_exception_status; body := None |}, s')
  end.

(** The routes of main.py have no path parameters: a route matches a request
    with the same path and one of its methods. *)
Definition matches (method p : string) (r : Route) : bool :=
  String.eqb p (path r) && existsb (String.eqb method) (methods r).

(** The response of the first matching route of the served application.
    [None]: no function of main.py runs, and the answer is the framework's
    own, which this development does not model. *)
Definition handle_request (method p : string) (s : ProgramState)
  : option (Response * ProgramState) :=
  match find (matches method p) (FastAPI.routes (app_obj s)) with
  | Some r => Some (serve r s)
  | None => None
  end.

(** ** The states of a running service *)

(** The state once the module has been imported, in some environment and at
    some time. *)
Definition imported (env : gmap string string) (now : Z) : ProgramState :=
  {| environ := env; clock := now; app_obj := app |}.

Definition tick (dt : Z) (s : ProgramState) : ProgramState :=
  {| environ := environ s; clock := clock s + dt; app_obj := app_obj s |}.



(** A local development origin: an http origin on [localhost]. *)
Definition is_local_origin (o : string) : bool :=
  String.prefix "http://localhost:" o.

(** * Properties *)

(** ** Dictionaries *)

Lemma getitem_setitem_eq k v d :
  PyDict.getitem k (PyDict.setitem k v d) = Some v.
Proof.
  induction d as [|[k' v'] d IH]; simpl.
  - by rewrite String.eqb_refl.
  - destruct (String.eqb k k') eqn:E; simpl; rewrite E; [done | exact IH].
Qed.

Lemma getitem_setitem_ne k k' v d :
  k <> k' -> PyDict.getitem k (PyDict.setitem k' v d) = PyDict.getitem k d.
Proof.
  intros Hne. induction d as [|[k0 v0] d IH]; simpl.
  - destruct (String.eqb_spec k k'); [contradiction | done].
  - destruct (String.eqb_spec k' k0) as [->|Hk0]; simpl.
    + destruct (String.eqb_spec k k0); [contradiction | done].
    + destruct (String.eqb_spec k k0); [done | exact IH].
Qed.

Lemma keys_setitem k v d :
  PyDict.keys (PyDict.setitem k v d) =
  if bool_decide (k ∈ PyDict.keys d) then PyDict.keys d
  else PyDict.keys d ++ [k].
Proof.
  unfold PyDict.keys. induction d as [|[k' v'] d IH]; [done|].
  cbn [PyDict.setitem].
  destruct (String.eqb_spec k k') as [->|Hne]; rewrite !fmap_cons; cbn [fst].
  - rewrite bool_decide_eq_true_2; [done | left].
  - rewrite IH. destruct (bool_decide_reflect (k ∈ d.*1)) as [Hin|Hnin].
    + rewrite bool_decide_eq_true_2; [done | by right].
    + rewrite bool_decide_eq_false_2; [done|].
      intros Hin. apply elem_of_cons in Hin as [?|?]; done.
Qed.

(** Storing an item never produces a repeated key. *)
Lemma setitem_NoDup k v d :
  NoDup (PyDict.keys d) -> NoDup (PyDict.keys (PyDict.setitem k v d)).
Proof.
  intros Hd. rewrite keys_setitem.
  destruct (bool_decide_reflect (k ∈ PyDict.keys d)) as [Hin|Hnin]; [done|].
  apply NoDup_app. split_and!; [done | | apply NoDup_singleton].
  intros x Hx Hx'. apply list_elem_of_singleton in Hx'. by subst.
Qed.

Lemma literal_NoDup items : NoDup (PyDict.keys (PyDict.literal items)).
Proof.
  unfold PyDict.literal.
  cut (forall d, NoDup (PyDict.keys d) ->
         NoDup (PyDict.keys (foldl (fun d kv => PyDict.setitem kv.1 kv.2 d) d items))).
  { intros H. apply H. constructor. }
  induction items as [|[k v] items IH]; intros d Hd; simpl; [done|].
  apply IH. by apply setitem_NoDup.
Qed.

(** ** Handlers *)

(** The value of the response field [k], if the body has one. *)
Definition field (k : string) (r : Response) : option string :=
  d ← body r; PyDict.getitem k d.

Lemma ret_spec {A : Type} (v : A) s : ret v s = (Ok v, s).
Proof. reflexivity. Qed.





(** *** The three routes *)

Lemma handle_health s :
  app_obj s = app ->
  handle_request "GET" "/health" s =
  Some ({| status := 200;
           body := Some [ ("status", "ok");
                          ("timestamp", "2024-01-01T00:00:00Z");
                          ("service", "ai-gateway");
                          ("version", "1.0.0") ] |}, s).
Proof. intros H. unfold handle_request. rewrite H. reflexivity. Qed.

Lemma handle_root s :
  app_obj s = app ->
  handle_request "GET" "/" s =
  Some ({| status := 200;
           body := Some [ ("message", "AI Gateway Service is running") ] |}, s).
Proof. intros H. unfold handle_request. rewrite H. reflexivity. Qed.

Lemma handle_test_hot_reload s :
  app_obj s = app ->
  handle_request "GET" "/test-hot-reload" s =
  Some ({| status := 200;
           body := Some [ ("message", "Hot reload is working!");
                          ("timestamp", "2024-01-01T00:00:00Z") ] |}, s).
Proof. intros H. unfold handle_request. rewrite H. reflexivity. Qed.


(** ** The endpoints as the spec describes them *)

(** C1: every GET /health is answered with status 200 and a body whose
    [status] field is the string "ok". *)
Theorem health_check_status_ok s :
  app_obj s = app ->
  exists resp,
    handle_request "GET" "/health" s = Some (resp, s) /\
    status resp = 200 /\
    field "status" resp = Some "ok".
Proof.
  intros H. eexists. split; [apply (handle_health s H)|]. split; reflexivity.
Qed.

Lemma health_check_status_ok_witness :
  app_obj (imported ∅ 0) = app /\
  exists resp,
    handle_request "GET" "/health" (imported ∅ 0) = Some (resp, imported ∅ 0) /\
    status resp = 200 /\
    field "status" resp = Some "ok".
Proof.
  split; [reflexivity|].
  apply (health_check_status_ok (imported ∅ 0)). reflexivity.
Defined.

(** C3: the body of every answer to GET /health is a dictionary whose keys
    are exactly status, timestamp, service and version. *)
Theorem health_check_keys s :
  app_obj s = app ->
  exists resp d,
    handle_request "GET" "/health" s = Some (resp, s) /\
    body resp = Some d /\
    PyDict.key_set d = {[ "status"; "timestamp"; "service"; "version" ]}.
Proof.
  intros H. do 2 eexists. split; [apply (handle_health s H)|].
  split; [reflexivity|].
  unfold PyDict.key_set, PyDict.keys. simpl. set_solver.
Qed.

Lemma health_check_keys_witness :
  app_obj (imported ∅ 0) = app /\
  exists resp d,
    handle_request "GET" "/health" (imported ∅ 0) = Some (resp, imported ∅ 0) /\
    body resp = Some d /\
    PyDict.key_set d = {[ "status"; "timestamp"; "service"; "version" ]}.
Proof.
  split; [reflexivity|].
  apply (health_check_keys (imported ∅ 0)). reflexivity.
Defined.

(** C4: every GET /test-hot-reload is answered with status 200 and a body
    whose keys are exactly message and timestamp and whose [message] is
    "Hot reload is working!". *)
Theorem test_hot_reload_response s :
  app_obj s = app ->
  exists resp d,
    handle_request "GET" "/test-hot-reload" s = Some (resp, s) /\
    status resp = 200 /\
    body resp = Some d /\
    PyDict.key_set d = {[ "message"; "timestamp" ]} /\
    PyDict.getitem "message" d = Some "Hot reload is working!".
Proof.
  intros H. do 2 eexists. split; [apply (handle_test_hot_reload s H)|].
  split_and!; [reflexivity | reflexivity | | reflexivity].
  unfold PyDict.key_set, PyDict.keys. simpl. set_solver.
Qed.

Lemma test_hot_reload_response_witness :
  app_obj (imported ∅ 0) = app /\
  exists resp d,
    handle_request "GET" "/test-hot-reload" (imported ∅ 0)
      = Some (resp, imported ∅ 0) /\
    status resp = 200 /\
    body resp = Some d /\
    PyDict.key_set d = {[ "message"; "timestamp" ]} /\
    PyDict.getitem "message" d = Some "Hot reload is working!".
Proof.
  split; [reflexivity|].
  apply (test_hot_reload_response (imported ∅ 0)). reflexivity.
Defined.

(** C5: every GET / is answered with status 200 and a body whose [message]
    is a string that is not empty. *)
Theorem root_message_nonempty s :
  app_obj s = app ->
  exists resp msg,
    handle_request "GET" "/" s = Some (resp, s) /\
    status resp = 200 /\
    field "message" resp = Some msg /\
    msg <> "" /\ (0 < String.length msg)%nat.
Proof.
  intros H. do 2 eexists. split; [apply (handle_root s H)|].
  split_and!; [reflexivity | reflexivity | discriminate | simpl; lia].
Qed.

Lemma root_message_nonempty_witness :
  app_obj (imported ∅ 0) = app /\
  exists resp msg,
    handle_request "GET" "/" (imported ∅ 0) = Some (resp, imported ∅ 0) /\
    status resp = 200 /\
    field "message" resp = Some msg /\
    msg <> "" /\ (0 < String.length msg)%nat.
Proof.
  split; [reflexivity|].
  apply (root_message_nonempty (imported ∅ 0)). reflexivity.
Defined.

(** C10: the [message] of every answer to GET / is exactly
    "AI Gateway Service is running". *)
Theorem root_message_exact s :
  app_obj s = app ->
  exists resp,
    handle_request "GET" "/" s = Some (resp, s) /\
    field "message" resp = Some "AI Gateway Service is running".
Proof.
  intros H. eexists. split; [apply (handle_root s H) | reflexivity].
Qed.

Lemma root_message_exact_witness :
  app_obj (imported ∅ 0) = app /\
  exists resp,
    handle_request "GET" "/" (imported ∅ 0) = Some (resp, imported ∅ 0) /\
    field "message" resp = Some "AI Gateway Service is running".
Proof.
  split; [reflexivity|].
  apply (root_message_exact (imported ∅ 0)). reflexivity.
Defined.

(** ** Purity of the handlers *)

(** C6: the registered handlers are [health_check], [root] and
    [test_hot_reload]; each takes no parameter, never raises, returns the
    same value in every state and leaves the state as it found it. *)
Theorem handlers_pure :
  endpoint <$> FastAPI.routes app = [HealthCheck; Root; TestHotReload] /\
  forall f : Endpoint,
    signature f = [] /\
    exists d, forall s, call f s = (Ok d, s).
Proof.
  split; [reflexivity|].
  intros f. split; [by destruct f|].
  destruct f; eexists; intros s; apply ret_spec.
Qed.

(** ** Configuration *)

Lemma main_imported dunder_name :
  dunder_name <> "__main__" -> main dunder_name = None.
Proof.
  intros H. unfold main. by destruct (String.eqb_spec dunder_name "__main__").
Qed.

(** C7: run as the main program, the module starts the server for [app] on
    host "0.0.0.0", the address of all interfaces, and port 8001. *)
Theorem main_host_port :
  exists cfg,
    main "__main__" = Some cfg /\
    served cfg = app /\
    host cfg = "0.0.0.0" /\
    port cfg = 8001.
Proof. eexists. split; [reflexivity|]. by split_and!. Qed.

(** C8: the application has one CORS middleware, and its allowlist is
    exactly the two origins http://localhost:3000 and http://localhost:4000,
    distinct and both on localhost. *)
Theorem cors_allowlist :
  allow_origins <$> FastAPI.user_middleware app =
    [ ["http://localhost:3000"; "http://localhost:4000"] ] /\
  forall m, m ∈ FastAPI.user_middleware app ->
    length (allow_origins m) = 2%nat /\
    NoDup (allow_origins m) /\
    forallb is_local_origin (allow_origins m) = true.
Proof.
  split; [reflexivity|].
  intros m Hm. apply list_elem_of_singleton in Hm as ->.
  split_and!; [reflexivity | | reflexivity].
  apply NoDup_cons. split; [|apply NoDup_singleton].
  intros Hin. apply list_elem_of_singleton in Hin. discriminate.
Qed.

(** ** The time stamp *)

(** C9: whatever the state and the time of the request, the [timestamp] of
    the answers to GET /health and to GET /test-hot-reload is the constant
    "2024-01-01T00:00:00Z", and two answers of the same endpoint are the
    same response, hence the same bytes under any encoding. *)
Theorem timestamp_constant s1 s2 p :
  app_obj s1 = app ->
  app_obj s2 = app ->
  p = "/health" \/ p = "/test-hot-reload" ->
  exists r1 r2,
    handle_request "GET" p s1 = Some (r1, s1) /\
    handle_request "GET" p s2 = Some (r2, s2) /\
    field "timestamp" r1 = Some "2024-01-01T00:00:00Z" /\
    field "timestamp" r2 = Some "2024-01-01T00:00:00Z" /\
    r1 = r2 /\
    forall encode : Response -> list Byte.byte, encode r1 = encode r2.
Proof.
  intros H1 H2 [-> | ->]; do 2 eexists.
  - split; [apply (handle_health s1 H1)|].
    split; [apply (handle_health s2 H2)|]. by split_and!.
  - split; [apply (handle_test_hot_reload s1 H1)|].
    split; [apply (handle_test_hot_reload s2 H2)|]. by split_and!.
Qed.

Lemma timestamp_constant_witness :
  app_obj (imported ∅ 0) = app /\
  app_obj (tick 3600 (imported {[ "PORT" := "8001" ]} 1704067200)) = app /\
  exists r1 r2,
    handle_request "GET" "/health" (imported ∅ 0)
      = Some (r1, imported ∅ 0) /\
    handle_request "GET" "/health"
        (tick 3600 (imported {[ "PORT" := "8001" ]} 1704067200))
      = Some (r2, tick 3600 (imported {[ "PORT" := "8001" ]} 1704067200)) /\
    field "timestamp" r1 = Some "2024-01-01T00:00:00Z" /\
    field "timestamp" r2 = Some "2024-01-01T00:00:00Z" /\
    r1 = r2 /\
    forall encode : Response -> list Byte.byte, encode r1 = encode r2.
Proof.
  split; [reflexivity|]. split; [reflexivity|].
  apply (timestamp_constant (imported ∅ 0)
           (tick 3600 (imported {[ "PORT" := "8001" ]} 1704067200)) "/health");
    [reflexivity | reflexivity | left; reflexivity].
Defined.

(** * Further properties of the module *)

(** ** Routing *)




(** ** Served requests *)

Lemma call_const f : exists d, forall s, call f s = (Ok d, s).
Proof. destruct f; eexists; intros s; apply ret_spec. Qed.

Lemma routes_status_code r :
  In r (FastAPI.routes app) -> status_code r = None.
Proof. simpl. intros [<-|[<-|[<-|[]]]]; reflexivity. Qed.

Lemma serve_registered r :
  In r (FastAPI.routes app) ->
  exists d, forall s, serve r s = ({| status := 200; body := Some d |}, s).
Proof.
  intros Hr. destruct (call_const (endpoint r)) as [d Hd]. exists d.
  intros s. unfold serve. by rewrite Hd, (routes_status_code r Hr).
Qed.

(** X3: whenever a function of main.py answers a request, the status is 200,
    the response has a body, and the state is left as it was: main.py never
    produces the status of an unhandled exception. *)
Theorem served_request_ok method p s resp s' :
  app_obj s = app ->
  handle_request method p s = Some (resp, s') ->
  status resp = 200 /\
  is_Some (body resp) /\
  status resp <> unhandled_exception_status /\
  s' = s.
Proof.
  intros Happ H. unfold handle_request in H. rewrite Happ in H.
  destruct (find _ _) as [r|] eqn:Hfind; [|discriminate].
  apply find_some in Hfind as [Hr _].
  destruct (serve_registered r Hr) as [d Hd].
  rewrite Hd in H. injection H as <- <-. by split_and!.
Qed.

Lemma served_request_ok_witness :
  app_obj (imported ∅ 0) = app /\
  status {| status := 200;
            body := Some [ ("message", "AI Gateway Service is running") ] |}
    = 200 /\
  is_Some (body {| status := 200;
                   body := Some [ ("message", "AI Gateway Service is running") ] |}) /\
  status {| status := 200;
            body := Some [ ("message", "AI Gateway Service is running") ] |}
    <> unhandled_exception_status /\
  imported ∅ 0 = imported ∅ 0.
Proof.
  split; [reflexivity|].
  apply (served_request_ok "GET" "/" (imported ∅ 0)); reflexivity.
Defined.

(** X4: the answer to a request does not depend on the state it is served in:
    neither the environment, nor the time, nor earlier requests change
    whether a function of main.py answers, or what it answers. *)
Theorem response_state_independent method p s1 s2 :
  app_obj s1 = app ->
  app_obj s2 = app ->
  fst <$> handle_request method p s1 = fst <$> handle_request method p s2.
Proof.
  intros H1 H2. unfold handle_request. rewrite H1, H2.
  destruct (find _ _) as [r|] eqn:Hfind; [|reflexivity].
  apply find_some in Hfind as [Hr _].
  destruct (serve_registered r Hr) as [d Hd]. by rewrite !Hd.
Qed.

Lemma response_state_independent_witness :
  app_obj (imported ∅ 0) = app /\
  app_obj (tick 86400 (imported {[ "DEBUG" := "1" ]} 1704067200)) = app /\
  fst <$> handle_request "GET" "/test-hot-reload" (imported ∅ 0) =
  fst <$> handle_request "GET" "/test-hot-reload"
            (tick 86400 (imported {[ "DEBUG" := "1" ]} 1704067200)).
Proof.
  split; [reflexivity|]. split; [reflexivity|].
  apply (response_state_independent "GET" "/test-hot-reload"
           (imported ∅ 0)
           (tick 86400 (imported {[ "DEBUG" := "1" ]} 1704067200)));
    reflexivity.
Defined.


(** ** Configuration *)

(** X6: the version that GET /health reports is the version the application
    object was declared with. *)
Theorem health_reports_app_version s :
  app_obj s = app ->
  exists resp,
    handle_request "GET" "/health" s = Some (resp, s) /\
    field "version" resp = Some (FastAPI.version (app_obj s)).
Proof.
  intros H. eexists. split; [apply (handle_health s H)|].
  rewrite H. reflexivity.
Qed.

Lemma health_reports_app_version_witness :
  app_obj (imported ∅ 0) = app /\
  exists resp,
    handle_request "GET" "/health" (imported ∅ 0)
      = Some (resp, imported ∅ 0) /\
    field "version" resp = Some (FastAPI.version (app_obj (imported ∅ 0))).
Proof.
  split; [reflexivity|].
  apply (health_reports_app_version (imported ∅ 0)). reflexivity.
Defined.

(** X7: credentials are allowed, every method and every header is allowed, and
    the origins are listed one by one: the allowlist holds no wildcard. *)
Theorem cors_credentials_without_wildcard_origin :
  forall m, m ∈ FastAPI.user_middleware app ->
    allow_credentials m = true /\
    ("*" ∉ allow_origins m) /\
    allow_methods m = ["*"] /\
    allow_headers m = ["*"].
Proof.
  intros m Hm. apply list_elem_of_singleton in Hm as ->.
  split_and!; [reflexivity | | reflexivity | reflexivity].
  by apply (bool_decide_unpack _).
Qed.

Lemma cors_credentials_without_wildcard_origin_witness :
  cors ∈ FastAPI.user_middleware app /\
  allow_credentials cors = true /\
  ("*" ∉ allow_origins cors) /\
  allow_methods cors = ["*"] /\
  allow_headers cors = ["*"].
Proof.
  assert (Hin : cors ∈ FastAPI.user_middleware app) by (simpl; left).
  split; [exact Hin|].
  exact (cors_credentials_without_wildcard_origin cors Hin).
Defined.

(** X8: the server is started only when the module is run as a script: under
    any other module name, importing it starts nothing. *)
Theorem main_only_as_script dunder_name :
  is_Some (main dunder_name) <-> dunder_name = "__main__".
Proof.
  unfold main. destruct (String.eqb_spec dunder_name "__main__") as [->|Hne].
  - split; [done | eauto].
  - split; [intros [x Hx]; discriminate | done].
Qed.
